(** * Mixamo downloader: the application bootstrap, embedded in Rocq

    The repository's visible code is two variants of one start-up script:
    [src/main.pyw] (signal handling, a keep-alive timer, a guarded event
    loop, a quick cleanup and a forced exit) and an older variant without
    signal handling that leaves through [sys.exit].

    Both are straight-line Python that talks to two things outside of them:
    the Qt binding together with the [ui] module (constructors and methods
    that may return or raise), and the interpreter's signal machinery.  The
    embedding keeps exactly that shape: a script is a computation in a small
    state-and-exception monad, every call that leaves the script is answered
    by an arbitrary environment ([world]), and everything that happens is
    appended to a log in the order in which it happens.

    What the model takes for granted:
    - the [import] statements at the top of the files have succeeded; a
      run starts at the [if __name__ == "__main__":] line;
    - [print] succeeds, and [signal.signal] is called from the main thread
      with a valid signal number, as both scripts do;
    - of all signals only SIGINT is delivered, at most once per call, and
      the interpreter takes it while a call out of the script is in
      progress (this is what the 100 ms timer of main.pyw is for);
    - Qt never changes the interpreter's table of Python-level handlers. *)

From Stdlib Require Import ZArith List String.
Import ListNotations.
Local Open Scope string_scope.
Local Open Scope list_scope.

Declare Scope py_scope.
Delimit Scope py_scope with py.

(** ** Python values, exceptions and the calls that leave the script *)

(** Objects living on the Qt side are known to the script by reference only. *)
Definition obj := nat.

Inductive value :=
| PyNone
| PyBool (b : bool)
| PyInt (z : Z)
| PyObj (o : obj).

(** The exception classes the scripts distinguish, and a catch-all for the
    rest ([RuntimeError], [ImportError], ...). *)
Inductive exn :=
| KeyboardInterrupt
| SystemExit (code : Z)
| AttributeError
| OtherException (name : string).

(** [QtCore.Qt.ApplicationAttribute]; the scripts use one member. *)
Inductive ApplicationAttribute :=
| AA_ShareOpenGLContexts
| AA_Other (n : Z).

(** The only callable handed to Qt is [lambda: None]. *)
Inductive callback :=
| LambdaNone.

Inductive call :=
| CSetAttribute (a : ApplicationAttribute)        (* QCoreApplication.setAttribute(a) *)
| CQApplication (argv : list string)              (* QtWidgets.QApplication(argv) *)
| CSetQuitOnLastWindowClosed (app : obj) (b : bool)
| CMixamoDownloaderUI                             (* MixamoDownloaderUI() *)
| CShow (w : obj)                                 (* w.show() *)
| CQTimer                                         (* QtCore.QTimer() *)
| CTimeoutConnect (t : obj) (f : callback)        (* t.timeout.connect(f) *)
| CStart (t : obj) (msec : Z)                     (* t.start(msec) *)
| CExec (app : obj)                               (* app.exec_() *)
| CGetattr (o : obj) (name : string)              (* o.name *)
| CBool (o : obj)                                 (* truth value of o *)
| CDeleteLater (o : obj)                          (* o.deleteLater() *)
| CDel (o : obj).                                 (* the last reference to o is dropped *)

(** What a call hands back to Python when it returns. *)
Definition ret_type (c : call) : Type :=
  match c with
  | CQApplication _ | CMixamoDownloaderUI | CQTimer => obj
  | CExec _ => Z
  | CGetattr _ _ => value
  | CBool _ => bool
  | _ => unit
  end.

Definition to_value (c : call) : ret_type c -> value :=
  match c return ret_type c -> value with
  | CQApplication _ => PyObj
  | CMixamoDownloaderUI => PyObj
  | CQTimer => PyObj
  | CExec _ => PyInt
  | CGetattr _ _ => fun v => v
  | CBool _ => PyBool
  | CSetAttribute _ => fun _ => PyNone
  | CSetQuitOnLastWindowClosed _ _ => fun _ => PyNone
  | CShow _ => fun _ => PyNone
  | CTimeoutConnect _ _ => fun _ => PyNone
  | CStart _ _ => fun _ => PyNone
  | CDeleteLater _ => fun _ => PyNone
  | CDel _ => fun _ => PyNone
  end.

(** ** Signals *)

Definition SIGINT : Z := 2.

(** What [signal.getsignal] can report: the two C-level dispositions, the
    interpreter's start-up handler for SIGINT, or the one Python function
    of the repository that is ever registered. *)
Inductive handler :=
| SIG_DFL
| SIG_IGN
| default_int_handler
| py_signal_handler.       (* the function [signal_handler] of main.pyw *)

(** The frame argument of a handler: [None], or the call that was in
    progress when the signal was taken. *)
Definition frame := option call.

(** ** The log and the environment *)

Inductive event :=
| SetHandler (signum : Z) (h : handler)   (* signal.signal(signum, h) *)
| Print (s : string)                      (* print(s) *)
| Call (c : call)                         (* control leaves the script *)
| Interrupt                               (* SIGINT is taken while the call runs *)
| Returned (c : call) (v : value)         (* the call comes back with v *)
| Raised (c : call) (e : exn).            (* the call comes back raising e *)

Inductive result (T : Type) :=
| Returns (v : T)
| Raises (e : exn).
Arguments Returns {T} v.
Arguments Raises {T} e.

(** The environment's answer to one call: whether a SIGINT reaches the
    interpreter while the call is in progress, and how the call ends when it
    is allowed to end. *)
Record reply (T : Type) := Reply { sigint : bool; result_of : result T }.
Arguments Reply {T} sigint result_of.
Arguments sigint {T} r.
Arguments result_of {T} r.

(** The environment sees everything that happened so far. *)
Definition world := list event -> forall c : call, reply (ret_type c).

(** ** How a process ends *)

Inductive process_end :=
| ForcedExit (status : Z)       (* os._exit(status): no finalisation at all *)
| InterpreterExit (status : Z)  (* end of script or SystemExit: normal shutdown *)
| Traceback (e : exn)           (* uncaught exception: traceback, normal shutdown *)
| KilledBySignal (signum : Z).  (* default disposition of a fatal signal *)

Definition exit_status (p : process_end) : option Z :=
  match p with
  | ForcedExit s | InterpreterExit s => Some s
  | Traceback _ | KilledBySignal _ => None
  end.

(** ** The interpreter state and the script monad *)

Record state := State { log : list event; handlers : Z -> handler }.

Inductive res (A : Type) :=
| Normal (a : A)
| Raise (e : exn)
| Stop (p : process_end).
Arguments Normal {A} a.
Arguments Raise {A} e.
Arguments Stop {A} p.

Definition M (A : Type) := state -> res A * state.

Definition ret {A} (a : A) : M A := fun st => (Normal a, st).

Definition bind {A B} (m : M A) (k : A -> M B) : M B :=
  fun st =>
    match m st with
    | (Normal a, st') => k a st'
    | (Raise e, st') => (Raise e, st')
    | (Stop p, st') => (Stop p, st')
    end.

Notation "x <- c1 ;; c2" := (bind c1 (fun x => c2))
  (at level 61, c1 at next level, right associativity) : py_scope.
Notation "c1 ;; c2" := (bind c1 (fun _ => c2))
  (at level 61, right associativity) : py_scope.
Local Open Scope py_scope.

Definition raise {A} (e : exn) : M A := fun st => (Raise e, st).

Definition emit (e : event) : M unit :=
  fun st => (Normal tt, State (log st ++ [e]) (handlers st)).

Definition get_log : M (list event) := fun st => (Normal (log st), st).

Definition getsignal (signum : Z) : M handler :=
  fun st => (Normal (handlers st signum), st).

(** [try: body / except <classes matched by catches>: on_exn]. *)
Definition try_except {A} (body : M A) (catches : exn -> bool) (on_exn : M A) : M A :=
  fun st =>
    match body st with
    | (Raise e, st') => if catches e then on_exn st' else (Raise e, st')
    | other => other
    end.

Definition except_KeyboardInterrupt (e : exn) : bool :=
  match e with KeyboardInterrupt => true | _ => false end.

(** A bare [except:] catches every exception. *)
Definition except_all (e : exn) : bool := true.

(** *** Interpreter built-ins used by the scripts *)

Definition print (s : string) : M unit := emit (Print s).

(** [os._exit(status)]: the process is gone, nothing runs afterwards. *)
Definition os__exit {A} (status : Z) : M A := fun st => (Stop (ForcedExit status), st).

(** [sys.exit(code)] only raises [SystemExit]. *)
Definition sys_exit {A} (code : Z) : M A := raise (SystemExit code).

(** [signal.signal(signum, h)], called from the main thread with a valid
    signal number: registers [h] and returns the previous handler. *)
Definition signal_signal (signum : Z) (h : handler) : M handler :=
  fun st =>
    (Normal (handlers st signum),
     State (log st ++ [SetHandler signum h])
           (fun n => if Z.eqb n signum then h else handlers st n)).

Definition nl : string := String (Ascii.ascii_of_nat 10) EmptyString.

(** ** main.pyw, lines 11-15 *)

Definition interrupt_message : string :=
  (nl ++ nl ++ "Received interrupt signal, forcing exit...")%string.

Definition signal_handler (sig : Z) (fr : frame) : M unit :=
  print interrupt_message ;;
  os__exit 0.

(** What the interpreter does with a signal it has taken, by handler. *)
Definition run_handler (h : handler) (sig : Z) (fr : frame) : M unit :=
  match h with
  | SIG_DFL => fun st => (Stop (KilledBySignal sig), st)
  | SIG_IGN => ret tt
  | default_int_handler => raise KeyboardInterrupt
  | py_signal_handler => signal_handler sig fr
  end.

Section Scripts.

(** Everything below runs against one arbitrary environment. *)
Variable w : world.

(** One call out of the script.  The call is logged, the environment is
    asked, a SIGINT that arrives meanwhile is handed to the registered
    handler, and if the handler gives control back the call's own outcome
    is logged and returned. *)
Definition invoke (c : call) : M (result (ret_type c)) :=
  h <- get_log ;;
  let r := w h c in
  emit (Call c) ;;
  (if sigint r
   then emit Interrupt ;;
        hd <- getsignal SIGINT ;;
        run_handler hd SIGINT (Some c)
   else ret tt) ;;
  match result_of r with
  | Returns v => emit (Returned c (to_value c v)) ;; ret (Returns v)
  | Raises e => emit (Raised c e) ;; ret (Raises e)
  end.

Definition do_call (c : call) : M (ret_type c) :=
  r <- invoke c ;;
  match r with
  | Returns v => ret v
  | Raises e => raise e
  end.

(** [hasattr(o, name)]: true when the attribute can be read, false when
    reading it raises [AttributeError]; other exceptions propagate. *)
Definition hasattr (o : obj) (name : string) : M bool :=
  r <- invoke (CGetattr o name) ;;
  match r with
  | Returns _ => ret true
  | Raises AttributeError => ret false
  | Raises e => raise e
  end.

(** Truth value testing, as done by [if] and [and]. *)
Definition truth (v : value) : M bool :=
  match v with
  | PyNone => ret false
  | PyBool b => ret b
  | PyInt z => ret (negb (Z.eqb z 0))
  | PyObj o => do_call (CBool o)
  end.

(** [v.deleteLater()]: only Qt objects have the method. *)
Definition deleteLater (v : value) : M unit :=
  match v with
  | PyObj o => do_call (CDeleteLater o)
  | _ => raise AttributeError
  end.

(** [del name]: the name is unbound. What that does to the object behind it
    is the environment's business; whatever a finaliser raises is ignored by
    the interpreter. *)
Definition del (o : obj) : M unit :=
  invoke (CDel o) ;; ret tt.

(** ** main.pyw, lines 18-52 *)

Definition keyboard_message : string :=
  (nl ++ nl ++ "Keyboard interrupt, exiting...")%string.

(** Lines 45-49. *)
Definition quick_cleanup (md : obj) : M unit :=
  try_except
    (has <- hasattr md "browser" ;;
     cond <- (if has
              then browser <- do_call (CGetattr md "browser") ;; truth browser
              else ret false) ;;
     if cond
     then browser <- do_call (CGetattr md "browser") ;; deleteLater browser
     else ret tt)
    except_all
    (ret tt).

(** [argv] is [sys.argv]; [name__] is the module's [__name__]. *)
Definition main_pyw (name__ : string) (argv : list string) : M unit :=
  if String.eqb name__ "__main__" then                   (* line 18 *)
    signal_signal SIGINT py_signal_handler ;;            (* line 20 *)
    do_call (CSetAttribute AA_ShareOpenGLContexts) ;;    (* line 23 *)
    app <- do_call (CQApplication argv) ;;               (* line 25 *)
    do_call (CSetQuitOnLastWindowClosed app true) ;;     (* line 26 *)
    md <- do_call CMixamoDownloaderUI ;;                 (* line 29 *)
    do_call (CShow md) ;;                                (* line 30 *)
    timer <- do_call CQTimer ;;                          (* line 33 *)
    do_call (CTimeoutConnect timer LambdaNone) ;;        (* line 34 *)
    do_call (CStart timer 100) ;;                        (* line 35 *)
    exit_code <- try_except                              (* lines 38-42 *)
                   (do_call (CExec app))
                   except_KeyboardInterrupt
                   (print keyboard_message ;; ret 0%Z) ;;
    quick_cleanup md ;;                                  (* lines 45-49 *)
    os__exit exit_code                                   (* line 52 *)
  else ret tt.

(** ** The older variant, lines 9-28 *)

Definition main_old (name__ : string) (argv : list string) : M unit :=
  if String.eqb name__ "__main__" then                   (* line 9 *)
    do_call (CSetAttribute AA_ShareOpenGLContexts) ;;    (* line 11 *)
    app <- do_call (CQApplication argv) ;;               (* line 13 *)
    do_call (CSetQuitOnLastWindowClosed app true) ;;     (* line 14 *)
    md <- do_call CMixamoDownloaderUI ;;                 (* line 17 *)
    do_call (CShow md) ;;                                (* line 18 *)
    exit_code <- do_call (CExec app) ;;                  (* line 21 *)
    del md ;;                                            (* line 24 *)
    del app ;;                                           (* line 25 *)
    sys_exit exit_code                                   (* line 28 *)
  else ret tt.

(** ** Running a script as a process *)

(** The interpreter around the script: falling off the end and
    [SystemExit] shut the interpreter down normally, any other exception
    reaching the top level is reported first. *)
Definition python (script : M unit) (st : state) : process_end * state :=
  match script st with
  | (Normal _, st') => (InterpreterExit 0, st')
  | (Raise (SystemExit code), st') => (InterpreterExit code, st')
  | (Raise e, st') => (Traceback e, st')
  | (Stop p, st') => (p, st')
  end.

(** A fresh process: nothing has happened yet; [tbl] is the signal table
    the interpreter starts with. *)
Definition startup (tbl : Z -> handler) : state := State [] tbl.

Definition run_main (argv : list string) (tbl : Z -> handler) : process_end * state :=
  python (main_pyw "__main__" argv) (startup tbl).

Definition run_old (argv : list string) (tbl : Z -> handler) : process_end * state :=
  python (main_old "__main__" argv) (startup tbl).

End Scripts.

(** ** Some concrete environments *)

(** Every call returns; constructors hand out fresh references, the event
    loop returns [rc], and [md.browser] is a Qt object that tests true. *)
Definition calm (rc : Z) : world :=
  fun h c =>
    Reply false
      (match c return result (ret_type c) with
       | CQApplication _ => Returns 1
       | CMixamoDownloaderUI => Returns 2
       | CQTimer => Returns 3
       | CExec _ => Returns rc
       | CGetattr _ _ => Returns (PyObj 4)
       | CBool _ => Returns true
       | CSetAttribute _ => Returns tt
       | CSetQuitOnLastWindowClosed _ _ => Returns tt
       | CShow _ => Returns tt
       | CTimeoutConnect _ _ => Returns tt
       | CStart _ _ => Returns tt
       | CDeleteLater _ => Returns tt
       | CDel _ => Returns tt
       end).

(** The signal table of a freshly started interpreter. *)
Definition python_table : Z -> handler :=
  fun n => if Z.eqb n SIGINT then default_int_handler else SIG_DFL.

(** The same, but the main window's constructor fails. *)
Definition broken_ui : world :=
  fun h c =>
    match c return reply (ret_type c) with
    | CMixamoDownloaderUI => Reply false (Raises (OtherException "RuntimeError"))
    | c' => calm 0 h c'
    end.

(** The event loop itself fails. *)
Definition crashing_loop : world :=
  fun h c =>
    match c return reply (ret_type c) with
    | CExec _ => Reply false (Raises (OtherException "RuntimeError"))
    | c' => calm 0 h c'
    end.


(** The event loop returns [rc]; afterwards the browser object turns out to
    be gone on the Qt side and [deleteLater] raises. *)
Definition stale_browser (rc : Z) : world :=
  fun h c =>
    match c return reply (ret_type c) with
    | CDeleteLater _ => Reply false (Raises (OtherException "RuntimeError"))
    | c' => calm rc h c'
    end.

(** Ctrl+C while the event loop runs. *)
Definition ctrl_c (rc : Z) : world :=
  fun h c =>
    match c return reply (ret_type c) with
    | CExec _ => Reply true (Returns rc)
    | c' => calm rc h c'
    end.

(** An environment that looks at the argument vector it was given: the
    event loop returns the number of arguments the application object was
    created with. *)
Fixpoint argc_of (h : list event) : Z :=
  match h with
  | [] => 0
  | Call (CQApplication argv) :: _ => Z.of_nat (List.length argv)
  | _ :: h' => argc_of h'
  end.

Definition counts_arguments : world :=
  fun h c =>
    match c return reply (ret_type c) with
    | CExec _ => Reply false (Returns (argc_of h))
    | c' => calm 0 h c'
    end.

(** ** Reading a log *)

Definition is_interrupt (e : event) : bool :=
  match e with Interrupt => true | _ => false end.

(** A SIGINT was taken at some point of the run. *)
Definition interrupted (l : list event) : bool := existsb is_interrupt l.

Definition is_SetHandler (e : event) : bool :=
  match e with SetHandler _ _ => true | _ => false end.

(** How the call of [app.exec_()] came back, if it did. *)
Inductive loop_end :=
| LoopReturned (rc : Z)
| LoopRaised (e : exn).

Fixpoint loop_outcome (l : list event) : option loop_end :=
  match l with
  | [] => None
  | Returned (CExec _) (PyInt rc) :: _ => Some (LoopReturned rc)
  | Raised (CExec _) e :: _ => Some (LoopRaised e)
  | _ :: l' => loop_outcome l'
  end.

(** What lines 38-42 bind to [exit_code], given how the loop came back. *)
Definition exit_code_of (l : list event) : option Z :=
  match loop_outcome l with
  | Some (LoopReturned rc) => Some rc
  | Some (LoopRaised KeyboardInterrupt) => Some 0%Z
  | _ => None
  end.

(** The interpreter's reaction to an exception nobody caught. *)
Definition uncaught (e : exn) : process_end :=
  match e with
  | SystemExit code => InterpreterExit code
  | _ => Traceback e
  end.

(** [escapes c e]: main.pyw has no handler around the call [c] that would
    catch [e]. Only the event loop (for [KeyboardInterrupt]) and the
    cleanup calls (for everything) are guarded. *)
Definition escapes (c : call) (e : exn) : bool :=
  match c with
  | CExec _ => negb (except_KeyboardInterrupt e)
  | CGetattr _ _ | CBool _ | CDeleteLater _ | CDel _ => false
  | _ => true
  end.

(** [precedes p q l]: in [l], no event satisfying [q] occurs unless an
    event satisfying [p] occurred earlier. *)
Fixpoint precedes (p q : event -> bool) (l : list event) : bool :=
  match l with
  | [] => true
  | e :: l' => if p e then true else negb (q e) && precedes p q l'
  end.

Definition handler_installed (e : event) : bool :=
  match e with
  | SetHandler signum py_signal_handler => Z.eqb signum SIGINT
  | _ => false
  end.

Definition attribute_set (e : event) : bool :=
  match e with
  | Returned (CSetAttribute AA_ShareOpenGLContexts) _ => true
  | _ => false
  end.

Definition creating_application (e : event) : bool :=
  match e with Call (CQApplication _) => true | _ => false end.

Definition application_created (e : event) : bool :=
  match e with Returned (CQApplication _) (PyObj _) => true | _ => false end.

Definition creating_window (e : event) : bool :=
  match e with Call CMixamoDownloaderUI => true | _ => false end.

Definition window_created (e : event) : bool :=
  match e with Returned CMixamoDownloaderUI (PyObj _) => true | _ => false end.

Definition showing_window (e : event) : bool :=
  match e with Call (CShow _) => true | _ => false end.

Definition window_shown (e : event) : bool :=
  match e with Returned (CShow _) _ => true | _ => false end.

Definition starting_loop (e : event) : bool :=
  match e with Call (CExec _) => true | _ => false end.

(** The log of lines 20-35 when every call returns: [app], [md] and [timer]
    are the references handed out by the three constructors. *)
Definition startup_log (argv : list string) (app md timer : obj) : list event :=
  [ SetHandler SIGINT py_signal_handler;
    Call (CSetAttribute AA_ShareOpenGLContexts);
    Returned (CSetAttribute AA_ShareOpenGLContexts) PyNone;
    Call (CQApplication argv);
    Returned (CQApplication argv) (PyObj app);
    Call (CSetQuitOnLastWindowClosed app true);
    Returned (CSetQuitOnLastWindowClosed app true) PyNone;
    Call CMixamoDownloaderUI;
    Returned CMixamoDownloaderUI (PyObj md);
    Call (CShow md);
    Returned (CShow md) PyNone;
    Call CQTimer;
    Returned CQTimer (PyObj timer);
    Call (CTimeoutConnect timer LambdaNone);
    Returned (CTimeoutConnect timer LambdaNone) PyNone;
    Call (CStart timer 100);
    Returned (CStart timer 100) PyNone ].

(** *** The cleanup of lines 45-49, as it shows in a log *)

Definition entering_cleanup (e : event) : bool :=
  match e with Call (CGetattr _ _) => true | _ => false end.

Definition deleting_browser (e : event) : bool :=
  match e with Call (CDeleteLater _) => true | _ => false end.

(** The log from the first attribute access on. *)
Fixpoint cleanup_part (l : list event) : list event :=
  match l with
  | [] => []
  | Call (CGetattr o name) :: l' => Call (CGetattr o name) :: l'
  | _ :: l' => cleanup_part l'
  end.

(** [tested_true v test]: the value [v] counted as true in a condition, and
    [test] is what deciding that added to the log: nothing for [None],
    booleans and integers, one truth test for a Qt object. *)
Definition tested_true (v : value) (test : list event) : Prop :=
  match v with
  | PyNone => False
  | PyBool b => b = true /\ test = []
  | PyInt z => z <> 0%Z /\ test = []
  | PyObj o => test = [Call (CBool o); Returned (CBool o) (PyBool true)]
  end.

(** *** What the two variants have in common *)

Definition shared (c : call) : bool :=
  match c with
  | CSetAttribute _ | CQApplication _ | CSetQuitOnLastWindowClosed _ _
  | CMixamoDownloaderUI | CShow _ | CExec _ => true
  | _ => false
  end.

Definition shared_event (e : event) : bool :=
  match e with
  | Call c | Returned c _ | Raised c _ => shared c
  | _ => false
  end.

(** The claimed common behaviour, step by step: set the attribute, create
    the application with [argv], enable quit-on-last-window-closed, create
    and show the main window, run the event loop, which returns [rc]. *)
Definition bootstrap_trace (argv : list string) (app md : obj) (rc : Z) : list event :=
  [ Call (CSetAttribute AA_ShareOpenGLContexts);
    Returned (CSetAttribute AA_ShareOpenGLContexts) PyNone;
    Call (CQApplication argv);
    Returned (CQApplication argv) (PyObj app);
    Call (CSetQuitOnLastWindowClosed app true);
    Returned (CSetQuitOnLastWindowClosed app true) PyNone;
    Call CMixamoDownloaderUI;
    Returned CMixamoDownloaderUI (PyObj md);
    Call (CShow md);
    Returned (CShow md) PyNone;
    Call (CExec app);
    Returned (CExec app) (PyInt rc) ].

(** A run terminates normally with [rc] when no SIGINT was taken and the
    event loop returned [rc]. *)
Definition normal_termination (r : process_end * state) (rc : Z) : Prop :=
  interrupted (log (snd r)) = false /\
  loop_outcome (log (snd r)) = Some (LoopReturned rc).

(** A run does the claimed bootstrap and ends with status [rc]. *)
Definition bootstraps (argv : list string) (rc : Z) (r : process_end * state) : Prop :=
  exit_status (fst r) = Some rc
  /\ exists app md,
       filter shared_event (log (snd r)) = bootstrap_trace argv app md rc.

(** *** The argument vector *)

(** A log with the argument vector blanked out wherever it occurs. *)
Definition scrub_call (c : call) : call :=
  match c with
  | CQApplication _ => CQApplication []
  | _ => c
  end.

Definition scrub (e : event) : event :=
  match e with
  | Call c => Call (scrub_call c)
  | Returned c v => Returned (scrub_call c) v
  | Raised c x => Raised (scrub_call c) x
  | _ => e
  end.

(** An environment that does not react to the argument vector: its replies
    are the same after histories that differ in the vector only, and the
    application constructor answers the same way for every vector. *)
Definition argv_blind (w : world) : Prop :=
  (forall h h' c, map scrub h = map scrub h' -> w h c = w h' c)
  /\ (forall h h' a a', map scrub h = map scrub h' ->
        w h (CQApplication a) = w h' (CQApplication a')).

(** *** Further readings of a log *)

(** The window has no [browser] attribute. *)
Definition no_browser (rc : Z) : world :=
  fun h c =>
    match c return reply (ret_type c) with
    | CGetattr _ _ => Reply false (Raises AttributeError)
    | c' => calm rc h c'
    end.

(** The window's [browser] attribute is [None]. *)
Definition browser_is_None (rc : Z) : world :=
  fun h c =>
    match c return reply (ret_type c) with
    | CGetattr _ _ => Reply false (Returns PyNone)
    | c' => calm rc h c'
    end.

(** Ctrl+C while the main window is being built. *)
Definition early_ctrl_c : world :=
  fun h c =>
    match c return reply (ret_type c) with
    | CMixamoDownloaderUI => Reply true (Returns 2)
    | c' => calm 0 h c'
    end.

(** A table in which SIGINT is ignored, as a process started in the
    background inherits it. *)
Definition ignoring_table : Z -> handler :=
  fun n => if Z.eqb n SIGINT then SIG_IGN else SIG_DFL.

Definition is_Print (e : event) : bool :=
  match e with Print _ => true | _ => false end.

Definition truth_testing (e : event) : bool :=
  match e with Call (CBool _) => true | _ => false end.

Definition dropping (e : event) : bool :=
  match e with Call (CDel _) => true | _ => false end.

(** Values that count as false without asking anybody. *)
Definition falsy (v : value) : bool :=
  match v with
  | PyNone => true
  | PyBool b => negb b
  | PyInt z => Z.eqb z 0
  | PyObj _ => false
  end.

Definition tested_false (e : event) : bool :=
  match e with Returned (CBool _) (PyBool false) => true | _ => false end.

(** The first exception in the log that main.pyw has no handler for. *)
Fixpoint escaped (l : list event) : option (call * exn) :=
  match l with
  | [] => None
  | Raised c e :: l' => if escapes c e then Some (c, e) else escaped l'
  | _ :: l' => escaped l'
  end.

Definition is_exec (c : call) : bool :=
  match c with CExec _ => true | _ => false end.

(** Lines 26 and 33-35 of main.pyw, as events. *)
Definition quit_flag_set (e : event) : bool :=
  match e with Returned (CSetQuitOnLastWindowClosed _ true) _ => true | _ => false end.

Definition creating_timer (e : event) : bool :=
  match e with Call CQTimer => true | _ => false end.

Definition timer_created (e : event) : bool :=
  match e with Returned CQTimer (PyObj _) => true | _ => false end.

Definition connecting_timer (e : event) : bool :=
  match e with Call (CTimeoutConnect _ _) => true | _ => false end.

Definition timer_connected (e : event) : bool :=
  match e with Returned (CTimeoutConnect _ LambdaNone) _ => true | _ => false end.

Definition starting_timer (e : event) : bool :=
  match e with Call (CStart _ _) => true | _ => false end.

Definition timer_started (e : event) : bool :=
  match e with Returned (CStart _ msec) _ => Z.eqb msec 100 | _ => false end.

(** What main.pyw has printed by the end of a run, as lines 13 and 41
    have it: the keyboard message if [KeyboardInterrupt] came out of the
    event loop, then the handler's message if a SIGINT was taken. *)
Definition expected_output (l : list event) : list event :=
  (match loop_outcome l with
   | Some (LoopRaised KeyboardInterrupt) => [Print keyboard_message]
   | _ => []
   end)
  ++ (if interrupted l then [Print interrupt_message] else []).

(** An environment that does not react to what only one of the variants
    does (registering the handler, the timer, the cleanup, [del]): its
    replies are determined by the call and by the history of the calls the
    two variants share. *)
Definition reacts_to_shared_calls_only (w : world) : Prop :=
  forall h h' c, filter shared_event h = filter shared_event h' -> w h c = w h' c.

(** ** Proof automation: walking the paths of a script *)

Ltac unfold_script :=
  cbv [run_main run_old python main_pyw main_old startup bind ret raise emit
       get_log getsignal try_except except_KeyboardInterrupt except_all print
       os__exit sys_exit signal_signal signal_handler run_handler invoke do_call
       hasattr truth deleteLater del quick_cleanup log handlers sigint result_of
       to_value String.eqb Ascii.eqb Bool.eqb SIGINT Z.eqb Pos.eqb fst snd
       negb List.app].

(** One step: ask the environment for its next reply and split on it, or
    split on a value the script itself inspects. *)
Ltac step w :=
  match goal with
  | |- context [w ?h ?c] =>
      destruct (w h c) as [[|] [?|?]] eqn:?
  | |- context [match ?e with
                | KeyboardInterrupt => _ | SystemExit _ => _
                | AttributeError => _ | OtherException _ => _ end] =>
      is_var e; destruct e
  | |- context [match ?v with
                | PyNone => _ | PyBool _ => _ | PyInt _ => _ | PyObj _ => _ end] =>
      is_var v; destruct v
  | |- context [match ?h with
                | SIG_DFL => _ | SIG_IGN => _
                | default_int_handler => _ | py_signal_handler => _ end] =>
      destruct h eqn:?
  | |- context [match ?z with Z0 => _ | Zpos _ => _ | Zneg _ => _ end] =>
      is_var z; destruct z
  | |- context [if ?b then _ else _] =>
      is_var b; destruct b
  end; cbv beta iota.

(** Walk every path of the run [r] under the environment [w]; the
    property to prove is kept folded until a path has been followed to its
    end. *)
Ltac walk_run w r :=
  let P := fresh "P" in
  pattern r;
  match goal with |- ?F _ => set (P := F) end;
  unfold_script; repeat step w;
  subst P; cbv beta.

Ltac walk w :=
  cbv zeta;
  match goal with
  | |- context [run_main w ?a ?t] => walk_run w (run_main w a t)
  | |- context [run_old w ?a ?t] => walk_run w (run_old w a t)
  end.

(** Two runs side by side: before each step the second run's question to
    the environment is turned into the first run's, using the two halves
    [Hc] and [Hq] of [argv_blind]. *)
Ltac sync w Hc Hq :=
  match goal with
  | |- context [w ?h1 (CQApplication ?a)] =>
      match goal with
      | |- context [w ?h2 (CQApplication ?b)] =>
          tryif constr_eq a b then fail else rewrite (Hq h2 h1 b a eq_refl)
      end
  | |- context [w ?h1 ?c] =>
      match goal with
      | |- context [w ?h2 c] =>
          tryif constr_eq h1 h2 then fail else rewrite (Hc h2 h1 c eq_refl)
      end
  end.

Ltac walk_pair w Hc Hq r1 r2 :=
  let P := fresh "P" in
  pattern r1, r2;
  match goal with |- ?F _ _ => set (P := F) end;
  unfold_script; repeat (try sync w Hc Hq; step w);
  subst P; cbv beta.

(** Two runs that ask the environment the same questions. *)
Ltac walk_both w r1 r2 :=
  let P := fresh "P" in
  pattern r1, r2;
  match goal with |- ?F _ _ => set (P := F) end;
  unfold_script; repeat step w;
  subst P; cbv beta.

(** A question whose answer is already known, because the other variant
    asked it after the same shared history. *)
Ltac known w Hc :=
  match goal with
  | Heq : w ?h1 ?c = _ |- context [w ?h2 ?c] =>
      rewrite (Hc h2 h1 c eq_refl), Heq; cbv beta iota
  end.

Ltac walk_after w Hc r :=
  let P := fresh "P" in
  pattern r;
  match goal with |- ?F _ => set (P := F) end;
  unfold_script; repeat (first [known w Hc | step w]);
  subst P; cbv beta.

Section Properties.

Variable w : world.

(** Imported as a module, main.pyw defines [signal_handler] and does
    nothing else. *)
Lemma main_pyw_imported (name__ : string) (argv : list string) (st : state) :
  String.eqb name__ "__main__" = false ->
  main_pyw w name__ argv st = (Normal tt, st).
Proof.
  intros Hname. unfold main_pyw. rewrite Hname. reflexivity.
Qed.

(** C1. Whatever signal number and frame it is called with, and whatever
    the state of the process, [signal_handler] prints its message and
    leaves through [os._exit(0)]: nothing else is added to the log, so no
    call reaches Qt and the interpreter is not shut down. This is the
    handler main.pyw has registered whenever a SIGINT can be taken: a run
    in which one is taken ends with status 0, and the last things that
    happened are the interrupted call, the interrupt and the message. *)
Theorem signal_handler_forces_exit :
  (forall (sig : Z) (fr : frame) (st : state),
      signal_handler sig fr st =
      (Stop (ForcedExit 0),
       State (log st ++ [Print interrupt_message]) (handlers st)))
  /\ (forall (argv : list string) (tbl : Z -> handler),
        interrupted (log (snd (run_main w argv tbl))) = true ->
        fst (run_main w argv tbl) = ForcedExit 0
        /\ exists c before,
             rev (log (snd (run_main w argv tbl))) =
             Print interrupt_message :: Interrupt :: Call c :: before).
Proof.
  split; [reflexivity|]. intros argv tbl. walk w.
  all: try (intros H; discriminate H).
  all: intros _; split; [reflexivity | do 2 eexists; reflexivity].
Qed.

(** C2, as the code has it. A run of main.pyw ends in one of four ways:
    a SIGINT was taken and the handler forced the exit with status 0; or
    the event loop returned [rc] and line 52 forced the exit with [rc];
    or [KeyboardInterrupt] came out of the event loop and line 52 forced
    the exit with 0; or a call that main.pyw does not guard (a start-up
    call, or the event loop raising anything but [KeyboardInterrupt])
    raised, and that exception ended the process through the
    interpreter, not through [os._exit]. *)
Theorem main_ends (argv : list string) (tbl : Z -> handler) :
  let r := run_main w argv tbl in
  let lg := log (snd r) in
  (interrupted lg = true /\ fst r = ForcedExit 0)
  \/ (interrupted lg = false /\
      exists rc, loop_outcome lg = Some (LoopReturned rc) /\ fst r = ForcedExit rc)
  \/ (interrupted lg = false /\
      loop_outcome lg = Some (LoopRaised KeyboardInterrupt) /\ fst r = ForcedExit 0)
  \/ (interrupted lg = false /\
      exists c e, last lg Interrupt = Raised c e /\ escapes c e = true /\
                  fst r = uncaught e).
Proof.
  walk w.
  all: first
    [ left; split; reflexivity
    | right; left; split; [reflexivity | eexists; split; reflexivity]
    | right; right; left; repeat split; reflexivity
    | right; right; right; split;
      [reflexivity | do 2 eexists; repeat split; reflexivity] ].
Qed.

(** C3, as the code has it. main.pyw does not look at its arguments; it
    hands them to [QApplication] and that is their only use. Against an
    environment that does not react to them, two runs with different
    argument vectors end the same way and leave the same log, up to the
    vector shown in the application constructor's call. *)
Theorem argv_only_reaches_qt (argv1 argv2 : list string) (tbl : Z -> handler) :
  argv_blind w ->
  fst (run_main w argv1 tbl) = fst (run_main w argv2 tbl)
  /\ map scrub (log (snd (run_main w argv1 tbl))) =
     map scrub (log (snd (run_main w argv2 tbl))).
Proof.
  intros [Hc Hq].
  walk_pair w Hc Hq (run_main w argv1 tbl) (run_main w argv2 tbl).
  all: split; reflexivity.
Qed.

(** C4. The run of main.pyw registers exactly one handler, for SIGINT:
    when the process ends, SIGINT is bound to [signal_handler], every
    other signal has the handler it started with, and the log holds a
    single call of [signal.signal]. *)
Theorem only_sigint_is_rebound (argv : list string) (tbl : Z -> handler) :
  let st := snd (run_main w argv tbl) in
  (forall n, handlers st n = if Z.eqb n SIGINT then py_signal_handler else tbl n)
  /\ filter is_SetHandler (log st) = [SetHandler SIGINT py_signal_handler].
Proof.
  walk w.
  all: split; [intros n|]; reflexivity.
Qed.

(** C5. On every run of main.pyw the start-up steps come in the order of
    the source: the SIGINT handler is registered and the attribute is set
    before the application object is asked for, the application object
    exists before the main window is asked for, the window exists before
    it is shown, and it has been shown before the event loop is entered.
    Whenever the event loop is entered, the log up to that point is the
    whole start-up sequence, each step on the objects made by the steps
    before it. *)
Theorem startup_order (argv : list string) (tbl : Z -> handler) :
  let lg := log (snd (run_main w argv tbl)) in
  precedes handler_installed creating_application lg = true
  /\ precedes attribute_set creating_application lg = true
  /\ precedes application_created creating_window lg = true
  /\ precedes window_created showing_window lg = true
  /\ precedes window_shown starting_loop lg = true
  /\ (existsb starting_loop lg = true ->
      exists app md timer rest,
        lg = startup_log argv app md timer ++ Call (CExec app) :: rest).
Proof.
  walk w.
  all: repeat split; try reflexivity.
  all: try (intros H; discriminate H).
  all: intros _; do 4 eexists; reflexivity.
Qed.


(** Whatever is raised inside the cleanup block stays inside it. *)
Lemma quick_cleanup_never_raises (md : obj) (st : state) (e : exn) :
  fst (quick_cleanup w md st) <> Raise e.
Proof.
  unfold quick_cleanup, try_except, except_all, ret.
  match goal with
  | |- context [match ?body st with _ => _ end] =>
      destruct (body st) as [[a|x|p] st']
  end; cbn; discriminate.
Qed.

(** C7. [deleteLater] is called only after [hasattr(md, 'browser')] held
    and [md.browser] tested true; and once the cleanup is entered, nothing
    raised in it reaches line 52: unless a SIGINT is taken, the process
    ends by [os._exit] with the [exit_code] bound at lines 38-42. The
    cleanup block itself never ends in an exception. *)
Theorem cleanup_is_guarded (argv : list string) (tbl : Z -> handler) :
  let r := run_main w argv tbl in
  let lg := log (snd r) in
  (existsb deleting_browser lg = true ->
   exists md v1 v2 test o rest,
     cleanup_part lg =
     Call (CGetattr md "browser") :: Returned (CGetattr md "browser") v1 ::
     Call (CGetattr md "browser") :: Returned (CGetattr md "browser") v2 ::
     test ++
     Call (CGetattr md "browser") :: Returned (CGetattr md "browser") (PyObj o) ::
     Call (CDeleteLater o) :: rest
     /\ tested_true v2 test
     /\ In (Returned CMixamoDownloaderUI (PyObj md)) lg)
  /\ (existsb entering_cleanup lg = true ->
      interrupted lg = false ->
      exists code, exit_code_of lg = Some code /\ fst r = ForcedExit code)
  /\ (forall md st e, fst (quick_cleanup w md st) <> Raise e).
Proof.
  cbv zeta.
  cut (forall P Q R : Prop, R -> P /\ Q -> P /\ Q /\ R); [|tauto].
  intros assemble; apply assemble; [exact quick_cleanup_never_raises|clear assemble].
  walk w.
  all: split.
  all: try (intros H; discriminate H).
  all: try (intros _ H; discriminate H).
  all: try (intros _ _; eexists; split; reflexivity).
  all: intros _; cbn [cleanup_part log snd];
    lazymatch goal with
    | |- exists md v1 v2 test o rest,
           (_ :: Returned _ ?a :: _ :: Returned (CGetattr ?m _) ?b :: _) = _ /\ _ =>
        exists m, a, b;
        lazymatch b with
        | PyObj ?x => exists [Call (CBool x); Returned (CBool x) (PyBool true)]
        | _ => exists (@nil event)
        end
    end;
    do 2 eexists; (split; [reflexivity | split]).
  all: try (cbn; repeat (first [left; reflexivity | right])).
  all: cbn; first [reflexivity | split; [first [reflexivity | discriminate] | reflexivity]].
Qed.

Lemma main_pyw_bootstraps (argv : list string) (tbl : Z -> handler) (rc : Z) :
  normal_termination (run_main w argv tbl) rc ->
  bootstraps argv rc (run_main w argv tbl).
Proof.
  unfold normal_termination, bootstraps. walk w; cbn [fst snd log].
  all: intros [Hi Hl]; try discriminate Hi; try discriminate Hl; cbn in Hl.
  all: inversion Hl; subst rc; split; [reflexivity | do 2 eexists; reflexivity].
Qed.

Lemma main_old_bootstraps (argv : list string) (tbl : Z -> handler) (rc : Z) :
  normal_termination (run_old w argv tbl) rc ->
  bootstraps argv rc (run_old w argv tbl).
Proof.
  unfold normal_termination, bootstraps. walk w; cbn [fst snd log].
  all: intros [Hi Hl]; try discriminate Hi; try discriminate Hl; cbn in Hl.
  all: inversion Hl; subst rc; split; [reflexivity | do 2 eexists; reflexivity].
Qed.

(** C8. When they terminate normally, both variants do the same
    bootstrap: restricted to the calls they share, each log is the
    claimed sequence (attribute, application with [argv], quit on last
    window closed, main window, show, event loop) on the application and
    window that run created, and each process ends with the event loop's
    return value as its exit status. *)
Theorem variants_agree (argv : list string) (tbl : Z -> handler) (rc : Z) :
  (normal_termination (run_main w argv tbl) rc ->
   bootstraps argv rc (run_main w argv tbl))
  /\ (normal_termination (run_old w argv tbl) rc ->
      bootstraps argv rc (run_old w argv tbl)).
Proof.
  split; [apply main_pyw_bootstraps | apply main_old_bootstraps].
Qed.

End Properties.

(** ** Further properties of the two scripts *)

Section Further.

Variable w : world.

(** X1. main.pyw does not depend on the signal table it inherits: because
    line 20 rebinds SIGINT before anything else happens, two runs that
    start from different tables end the same way and leave the same log. *)
Theorem inherited_table_is_irrelevant (argv : list string) (tbl1 tbl2 : Z -> handler) :
  fst (run_main w argv tbl1) = fst (run_main w argv tbl2)
  /\ log (snd (run_main w argv tbl1)) = log (snd (run_main w argv tbl2)).
Proof.
  walk_both w (run_main w argv tbl1) (run_main w argv tbl2).
  all: split; reflexivity.
Qed.

(** X2. The cleanup of lines 45-49 reads [md.browser] at most three
    times, tests its truth at most once and calls [deleteLater] at most
    once. *)
Theorem cleanup_is_bounded (argv : list string) (tbl : Z -> handler) :
  let lg := log (snd (run_main w argv tbl)) in
  List.length (filter entering_cleanup lg) <= 3
  /\ List.length (filter truth_testing lg) <= 1
  /\ List.length (filter deleting_browser lg) <= 1.
Proof.
  walk w.
  all: cbn; repeat split; repeat constructor.
Qed.

(** X3. When the first read of [md.browser] raises (the attribute is
    missing, or reading it fails), the cleanup is over after that one
    call: nothing is tested or deleted, and line 52 forces the exit with
    the [exit_code] of lines 38-42. *)
Theorem missing_browser_is_skipped
    (argv : list string) (tbl : Z -> handler) (md : obj) (e : exn) :
  let r := run_main w argv tbl in
  let lg := log (snd r) in
  nth_error (cleanup_part lg) 1 = Some (Raised (CGetattr md "browser") e) ->
  cleanup_part lg =
    [Call (CGetattr md "browser"); Raised (CGetattr md "browser") e]
  /\ exists code, exit_code_of lg = Some code /\ fst r = ForcedExit code.
Proof.
  walk w.
  all: cbn; intros H; try discriminate H.
  all: inversion H; subst; split; [reflexivity | eexists; split; reflexivity].
Qed.

(** X4. When the second read of [md.browser] (the one the condition of
    line 46 tests) gives [None], [False] or 0, the cleanup stops there:
    there is no truth test, no third read and no [deleteLater], and line
    52 forces the exit with the [exit_code] of lines 38-42. A Qt object
    whose truth test answers [False] is not deleted either. *)
Theorem false_browser_is_kept
    (argv : list string) (tbl : Z -> handler) (md : obj) (v : value) :
  let r := run_main w argv tbl in
  let lg := log (snd r) in
  (nth_error (cleanup_part lg) 3 = Some (Returned (CGetattr md "browser") v) ->
   falsy v = true ->
   List.length (cleanup_part lg) = 4
   /\ existsb deleting_browser lg = false
   /\ exists code, exit_code_of lg = Some code /\ fst r = ForcedExit code)
  /\ (existsb tested_false lg = true -> existsb deleting_browser lg = false).
Proof.
  walk w.
  all: cbn; split.
  all: try (intros H; discriminate H).
  all: try reflexivity.
  all: intros H F; inversion H; subst; try discriminate F.
  all: repeat split; eexists; split; reflexivity.
Qed.

(** X5. main.pyw prints nothing but its two messages: the keyboard
    message exactly when [KeyboardInterrupt] came out of the event loop,
    and the handler's message exactly when a SIGINT was taken, in that
    order. *)
Theorem what_is_printed (argv : list string) (tbl : Z -> handler) :
  let lg := log (snd (run_main w argv tbl)) in
  filter is_Print lg = expected_output lg.
Proof.
  walk w.
  all: reflexivity.
Qed.

(** X6. An exception main.pyw has no handler for stops the run on the
    spot: it is the last thing in the log, the cleanup of lines 45-49 is
    never entered, the process ends through the interpreter with that
    exception ([SystemExit] with its code), and unless it came out of the
    event loop itself the event loop was never started. *)
Theorem uncaught_exception_stops_the_run
    (argv : list string) (tbl : Z -> handler) (c : call) (e : exn) :
  let r := run_main w argv tbl in
  let lg := log (snd r) in
  escaped lg = Some (c, e) ->
  last lg Interrupt = Raised c e
  /\ existsb entering_cleanup lg = false
  /\ fst r = uncaught e
  /\ (is_exec c = false -> existsb starting_loop lg = false).
Proof.
  walk w.
  all: cbn; intros H; try discriminate H.
  all: inversion H; subst; repeat split; try reflexivity.
  all: intros F; try reflexivity; discriminate F.
Qed.

(** X7. The rest of the start-up order of main.pyw: quit-on-last-window-
    closed is switched on before the main window is asked for; the timer
    is created only after the window has been shown, connected to the
    no-op callback before it is started, and running with its 100 ms
    interval before the event loop is entered. *)
Theorem timer_runs_before_the_loop (argv : list string) (tbl : Z -> handler) :
  let lg := log (snd (run_main w argv tbl)) in
  precedes quit_flag_set creating_window lg = true
  /\ precedes window_shown creating_timer lg = true
  /\ precedes timer_created connecting_timer lg = true
  /\ precedes timer_connected starting_timer lg = true
  /\ precedes timer_started starting_loop lg = true.
Proof.
  walk w.
  all: repeat split; reflexivity.
Qed.

(** X8. How the older variant ends, as long as the inherited SIGINT
    handler is not a Python function. With no SIGINT taken, or SIGINT
    ignored: either the event loop returned [rc], both [del] statements
    ran (window first, whatever they raised) and the interpreter shut down
    with status [rc]; or some call before them raised, nothing was dropped
    and that exception, [KeyboardInterrupt] from the event loop included,
    ended the process. With a SIGINT taken under the interpreter's own
    handler the run ends at once in an uncaught [KeyboardInterrupt], under
    the default disposition the process is killed. It never leaves
    through [os._exit]. *)
Theorem main_old_ends (argv : list string) (tbl : Z -> handler) :
  tbl SIGINT <> py_signal_handler ->
  let r := run_old w argv tbl in
  let lg := log (snd r) in
  ((interrupted lg = false \/ tbl SIGINT = SIG_IGN) /\
   exists rc app md,
     filter shared_event lg = bootstrap_trace argv app md rc
     /\ filter dropping lg = [Call (CDel md); Call (CDel app)]
     /\ fst r = InterpreterExit rc)
  \/ ((interrupted lg = false \/ tbl SIGINT = SIG_IGN) /\
      exists c e,
        last lg Interrupt = Raised c e /\ shared c = true
        /\ filter dropping lg = [] /\ fst r = uncaught e)
  \/ (tbl SIGINT = default_int_handler /\ last lg (Print "") = Interrupt
      /\ fst r = Traceback KeyboardInterrupt)
  \/ (tbl SIGINT = SIG_DFL /\ last lg (Print "") = Interrupt
      /\ fst r = KilledBySignal SIGINT).
Proof.
  intros Hpy. walk w.
  all: try (exfalso; apply Hpy; assumption).
  all: first
    [ left; split;
      [first [left; reflexivity | right; assumption]
      | do 3 eexists; repeat split; reflexivity]
    | right; left; split;
      [first [left; reflexivity | right; assumption]
      | do 2 eexists; repeat split; reflexivity]
    | right; right; left; repeat split; first [assumption | reflexivity]
    | right; right; right; repeat split; first [assumption | reflexivity] ].
Qed.

(** X9. The older variant leaves the signal table alone: every signal
    keeps the handler the process started with, and [signal.signal] is
    never called. *)
Theorem main_old_keeps_the_table (argv : list string) (tbl : Z -> handler) :
  let st := snd (run_old w argv tbl) in
  (forall n, handlers st n = tbl n)
  /\ filter is_SetHandler (log st) = [].
Proof.
  walk w.
  all: split; [intros n|]; reflexivity.
Qed.

(** X10. Against an environment that reacts to the shared calls only,
    the two variants coincide on normal termination: the event loop
    returns the same value to both, both processes end with it as exit
    status, and their logs agree on the calls the variants share. *)
Theorem variants_coincide (argv : list string) (tbl : Z -> handler) (rc rc' : Z) :
  reacts_to_shared_calls_only w ->
  normal_termination (run_main w argv tbl) rc ->
  normal_termination (run_old w argv tbl) rc' ->
  rc = rc'
  /\ exit_status (fst (run_main w argv tbl)) = exit_status (fst (run_old w argv tbl))
  /\ filter shared_event (log (snd (run_main w argv tbl))) =
     filter shared_event (log (snd (run_old w argv tbl))).
Proof.
  unfold normal_termination. intros Hc.
  walk_run w (run_main w argv tbl).
  all: cbn [fst snd log]; intros [Hi Hl]; try discriminate Hi; try discriminate Hl.
  all: cbn in Hl; inversion Hl; subst rc; clear Hi Hl.
  all: walk_after w Hc (run_old w argv tbl).
  all: cbn [fst snd log]; intros [Hi Hl]; try discriminate Hi; try discriminate Hl.
  all: cbn in Hl; inversion Hl; subst rc'; (split; [|split]); lazy; reflexivity.
Qed.

End Further.

(** ** Concrete runs *)

Example calm_run :
  fst (run_main (calm 7) ["main.pyw"] python_table) = ForcedExit 7
  /\ log (snd (run_main (calm 7) ["main.pyw"] python_table)) =
     startup_log ["main.pyw"] 1 2 3 ++
     [ Call (CExec 1); Returned (CExec 1) (PyInt 7);
       Call (CGetattr 2 "browser"); Returned (CGetattr 2 "browser") (PyObj 4);
       Call (CGetattr 2 "browser"); Returned (CGetattr 2 "browser") (PyObj 4);
       Call (CBool 4); Returned (CBool 4) (PyBool true);
       Call (CGetattr 2 "browser"); Returned (CGetattr 2 "browser") (PyObj 4);
       Call (CDeleteLater 4); Returned (CDeleteLater 4) PyNone ].
Proof. split; reflexivity. Qed.

Example calm_old_run :
  fst (run_old (calm 7) ["main.pyw"] python_table) = InterpreterExit 7
  /\ log (snd (run_old (calm 7) ["main.pyw"] python_table)) =
     bootstrap_trace ["main.pyw"] 1 2 7 ++
     [ Call (CDel 2); Returned (CDel 2) PyNone;
       Call (CDel 1); Returned (CDel 1) PyNone ].
Proof. split; reflexivity. Qed.

Example ctrl_c_run :
  fst (run_main (ctrl_c 7) ["main.pyw"] python_table) = ForcedExit 0
  /\ log (snd (run_main (ctrl_c 7) ["main.pyw"] python_table)) =
     startup_log ["main.pyw"] 1 2 3 ++
     [ Call (CExec 1); Interrupt; Print interrupt_message ].
Proof. split; reflexivity. Qed.

(** Without the handler of main.pyw the same Ctrl+C becomes a
    [KeyboardInterrupt] that nobody catches. *)
Example ctrl_c_old_run :
  fst (run_old (ctrl_c 7) ["main.pyw"] python_table) = Traceback KeyboardInterrupt.
Proof. reflexivity. Qed.

Lemma calm_is_argv_blind (rc : Z) : argv_blind (calm rc).
Proof. split; intros; reflexivity. Defined.

(** C1 on a run: Ctrl+C in the event loop. *)
Lemma signal_handler_forces_exit_witness :
  interrupted (log (snd (run_main (ctrl_c 7) ["main.pyw"] python_table))) = true
  /\ fst (run_main (ctrl_c 7) ["main.pyw"] python_table) = ForcedExit 0.
Proof.
  split; [reflexivity|].
  exact (proj1 (proj2 (signal_handler_forces_exit (ctrl_c 7))
                      ["main.pyw"] python_table eq_refl)).
Defined.

(** C2 as stated fails: when the main window cannot be built, or the event
    loop raises something other than [KeyboardInterrupt], the exception
    leaves the script and the interpreter shuts down normally; there is no
    forced exit on those paths. *)
Lemma failed_startup_is_not_forced :
  fst (run_main broken_ui ["main.pyw"] python_table) =
  Traceback (OtherException "RuntimeError")
  /\ fst (run_main crashing_loop ["main.pyw"] python_table) =
     Traceback (OtherException "RuntimeError")
  /\ ~ (forall (w : world) (argv : list string) (tbl : Z -> handler),
          exists status, fst (run_main w argv tbl) = ForcedExit status).
Proof.
  split; [reflexivity|]. split; [reflexivity|].
  intros H. destruct (H broken_ui ["main.pyw"] python_table) as [status Hs].
  discriminate Hs.
Qed.

(** C3 as stated fails: the argument vector is handed to Qt, so runs with
    different vectors differ in what they pass on, and an environment that
    reads the vector can make them end differently. *)
Lemma argv_is_observed :
  log (snd (run_main (calm 0) ["main.pyw"] python_table)) <>
  log (snd (run_main (calm 0) ["main.pyw"; "-style"; "fusion"] python_table))
  /\ fst (run_main counts_arguments ["main.pyw"] python_table) <>
     fst (run_main counts_arguments ["main.pyw"; "-style"; "fusion"] python_table)
  /\ ~ (forall (w : world) (argv1 argv2 : list string) (tbl : Z -> handler),
          fst (run_main w argv1 tbl) = fst (run_main w argv2 tbl)
          /\ log (snd (run_main w argv1 tbl)) = log (snd (run_main w argv2 tbl))).
Proof.
  assert (Hfst : fst (run_main counts_arguments ["main.pyw"] python_table) <>
                 fst (run_main counts_arguments ["main.pyw"; "-style"; "fusion"]
                               python_table))
    by (vm_compute; discriminate).
  split; [vm_compute; discriminate|]. split; [exact Hfst|].
  intros H. apply Hfst.
  exact (proj1 (H counts_arguments ["main.pyw"] ["main.pyw"; "-style"; "fusion"]
                  python_table)).
Qed.

Lemma argv_only_reaches_qt_witness :
  argv_blind (calm 7)
  /\ fst (run_main (calm 7) ["main.pyw"] python_table) =
     fst (run_main (calm 7) ["main.pyw"; "-style"; "fusion"] python_table)
  /\ map scrub (log (snd (run_main (calm 7) ["main.pyw"] python_table))) =
     map scrub (log (snd (run_main (calm 7) ["main.pyw"; "-style"; "fusion"]
                                   python_table))).
Proof.
  split; [exact (calm_is_argv_blind 7)|].
  exact (argv_only_reaches_qt (calm 7) ["main.pyw"]
           ["main.pyw"; "-style"; "fusion"] python_table
           (calm_is_argv_blind 7)).
Defined.

Lemma startup_order_witness :
  existsb starting_loop (log (snd (run_main (calm 7) ["main.pyw"] python_table))) = true
  /\ exists app md timer rest,
       log (snd (run_main (calm 7) ["main.pyw"] python_table)) =
       startup_log ["main.pyw"] app md timer ++ Call (CExec app) :: rest.
Proof.
  split; [reflexivity|].
  exact (proj2 (proj2 (proj2 (proj2 (proj2
           (startup_order (calm 7) ["main.pyw"] python_table))))) eq_refl).
Defined.


(** C7 on a run: [deleteLater] raises, the status of the event loop still
    reaches [os._exit]. *)
Lemma cleanup_is_guarded_witness :
  existsb entering_cleanup
    (log (snd (run_main (stale_browser 7) ["main.pyw"] python_table))) = true
  /\ interrupted (log (snd (run_main (stale_browser 7) ["main.pyw"] python_table))) = false
  /\ last (log (snd (run_main (stale_browser 7) ["main.pyw"] python_table))) Interrupt =
     Raised (CDeleteLater 4) (OtherException "RuntimeError")
  /\ exists code,
       exit_code_of (log (snd (run_main (stale_browser 7) ["main.pyw"] python_table))) =
       Some code
       /\ fst (run_main (stale_browser 7) ["main.pyw"] python_table) = ForcedExit code.
Proof.
  split; [reflexivity|]. split; [reflexivity|]. split; [reflexivity|].
  exact (proj1 (proj2 (cleanup_is_guarded (stale_browser 7) ["main.pyw"] python_table))
               eq_refl eq_refl).
Defined.

Lemma variants_agree_witness :
  normal_termination (run_main (calm 7) ["main.pyw"] python_table) 7
  /\ normal_termination (run_old (calm 7) ["main.pyw"] python_table) 7
  /\ bootstraps ["main.pyw"] 7 (run_main (calm 7) ["main.pyw"] python_table)
  /\ bootstraps ["main.pyw"] 7 (run_old (calm 7) ["main.pyw"] python_table).
Proof.
  assert (Hm : normal_termination (run_main (calm 7) ["main.pyw"] python_table) 7)
    by (split; reflexivity).
  assert (Ho : normal_termination (run_old (calm 7) ["main.pyw"] python_table) 7)
    by (split; reflexivity).
  split; [exact Hm|]. split; [exact Ho|].
  split.
  - exact (proj1 (variants_agree (calm 7) ["main.pyw"] python_table 7) Hm).
  - exact (proj2 (variants_agree (calm 7) ["main.pyw"] python_table 7) Ho).
Defined.

(** The older variant, in contrast to X1, depends on the table it
    inherits: the same Ctrl+C is fatal or ignored. *)
Example old_variant_depends_on_the_table :
  fst (run_old (ctrl_c 7) ["main.pyw"] python_table) = Traceback KeyboardInterrupt
  /\ fst (run_old (ctrl_c 7) ["main.pyw"] ignoring_table) = InterpreterExit 7
  /\ fst (run_main (ctrl_c 7) ["main.pyw"] python_table) =
     fst (run_main (ctrl_c 7) ["main.pyw"] ignoring_table).
Proof. repeat split; reflexivity. Qed.

Lemma missing_browser_is_skipped_witness :
  nth_error
    (cleanup_part (log (snd (run_main (no_browser 7) ["main.pyw"] python_table)))) 1 =
  Some (Raised (CGetattr 2 "browser") AttributeError)
  /\ fst (run_main (no_browser 7) ["main.pyw"] python_table) = ForcedExit 7.
Proof.
  split; [reflexivity|].
  destruct (proj2 (missing_browser_is_skipped (no_browser 7) ["main.pyw"]
                     python_table 2 AttributeError eq_refl))
    as [code [Hcode Hend]].
  injection Hcode as <-. exact Hend.
Defined.

Lemma false_browser_is_kept_witness :
  nth_error
    (cleanup_part (log (snd (run_main (browser_is_None 7) ["main.pyw"] python_table)))) 3 =
  Some (Returned (CGetattr 2 "browser") PyNone)
  /\ falsy PyNone = true
  /\ existsb deleting_browser
       (log (snd (run_main (browser_is_None 7) ["main.pyw"] python_table))) = false.
Proof.
  split; [reflexivity|]. split; [reflexivity|].
  exact (proj1 (proj2 (proj1 (false_browser_is_kept (browser_is_None 7) ["main.pyw"]
                                python_table 2 PyNone) eq_refl eq_refl))).
Defined.

Lemma uncaught_exception_stops_the_run_witness :
  escaped (log (snd (run_main broken_ui ["main.pyw"] python_table))) =
  Some (CMixamoDownloaderUI, OtherException "RuntimeError")
  /\ existsb starting_loop (log (snd (run_main broken_ui ["main.pyw"] python_table))) =
     false.
Proof.
  split; [reflexivity|].
  exact (proj2 (proj2 (proj2
           (uncaught_exception_stops_the_run broken_ui ["main.pyw"] python_table
              CMixamoDownloaderUI (OtherException "RuntimeError") eq_refl)))
           eq_refl).
Defined.

Lemma python_table_has_no_python_function : python_table SIGINT <> py_signal_handler.
Proof. discriminate. Defined.

Lemma main_old_ends_witness :
  python_table SIGINT <> py_signal_handler
  /\ forall status,
       fst (run_old early_ctrl_c ["main.pyw"] python_table) <> ForcedExit status.
Proof.
  split; [exact python_table_has_no_python_function|].
  intros status.
  destruct (main_old_ends early_ctrl_c ["main.pyw"] python_table
              python_table_has_no_python_function)
    as [[_ [rc [app [md [_ [_ H]]]]]]
       |[[_ [c [e [_ [_ [_ H]]]]]]
       |[[_ [_ H]]|[_ [_ H]]]]];
    rewrite H; try discriminate.
  destruct e; discriminate.
Defined.

Lemma calm_reacts_to_shared_calls_only (rc : Z) : reacts_to_shared_calls_only (calm rc).
Proof. intros h h' c _. reflexivity. Defined.

Lemma variants_coincide_witness :
  reacts_to_shared_calls_only (calm 7)
  /\ normal_termination (run_main (calm 7) ["main.pyw"] python_table) 7
  /\ normal_termination (run_old (calm 7) ["main.pyw"] python_table) 7
  /\ filter shared_event (log (snd (run_main (calm 7) ["main.pyw"] python_table))) =
     filter shared_event (log (snd (run_old (calm 7) ["main.pyw"] python_table))).
Proof.
  assert (Hm : normal_termination (run_main (calm 7) ["main.pyw"] python_table) 7)
    by (split; reflexivity).
  assert (Ho : normal_termination (run_old (calm 7) ["main.pyw"] python_table) 7)
    by (split; reflexivity).
  split; [exact (calm_reacts_to_shared_calls_only 7)|].
  split; [exact Hm|]. split; [exact Ho|].
  exact (proj2 (proj2 (variants_coincide (calm 7) ["main.pyw"] python_table 7 7
                         (calm_reacts_to_shared_calls_only 7) Hm Ho))).
Defined.
